(** * PythonDocxService: a shallow embedding of [main.py]

    The service exposes [POST /generate-docx]: it downloads a DOCX template
    and a signature image from an R2 (S3-compatible) bucket, renders the
    template with the request data, a QR code and the signature, converts
    the result to PDF with LibreOffice and uploads the PDF.

    Python strings are modelled as lists of Unicode code points ([list Z]);
    [u] turns an ASCII string literal into such a list. *)

From Stdlib Require Import ZArith List Lia Ascii String.
From stdpp Require Import base list gmap.

Abbreviation pystr := (list Z).

Definition u (s : string) : pystr :=
  map (fun a => Z.of_nat (nat_of_ascii a)) (list_ascii_of_string s).
Arguments u s%_string_scope.

Open Scope Z_scope.

(** ** Character classes of Python's [str] and [re] *)

(** [str.isspace] / [Py_UNICODE_ISSPACE]: used both by [str.strip()] and
    by the regex class [\s] on [str] patterns. *)
Definition is_space (c : Z) : bool :=
  ((9 <=? c) && (c <=? 13)) || ((28 <=? c) && (c <=? 32)) ||
  (c =? 133) || (c =? 160) || (c =? 5760) ||
  ((8192 <=? c) && (c <=? 8202)) || (c =? 8232) || (c =? 8233) ||
  (c =? 8239) || (c =? 8287) || (c =? 12288).

(** The regex class [[a-zA-Z0-9_]] (ASCII ranges only). *)
Definition is_word (c : Z) : bool :=
  ((65 <=? c) && (c <=? 90)) || ((97 <=? c) && (c <=? 122)) ||
  ((48 <=? c) && (c <=? 57)) || (c =? 95).

Definition UNDERSCORE : Z := 95.
Definition SLASH : Z := 47.

(** ** [str.strip()] *)

Fixpoint lstrip_by (p : Z -> bool) (s : pystr) : pystr :=
  match s with
  | [] => []
  | c :: s' => if p c then lstrip_by p s' else s
  end.

Definition rstrip_by (p : Z -> bool) (s : pystr) : pystr :=
  rev (lstrip_by p (rev s)).

Definition lstrip (s : pystr) : pystr := lstrip_by is_space s.
Definition rstrip (s : pystr) : pystr := rstrip_by is_space s.

Definition strip (s : pystr) : pystr := rstrip (lstrip s).

(** ** [re.sub(r"\s+", "_", s)]

    The regex engine scans left to right; at a whitespace character the
    greedy [\s+] consumes the whole run and emits one ["_"].  The flag
    [in_run] records that the previous character was consumed by the
    current match. *)
Fixpoint sub_ws_aux (in_run : bool) (s : pystr) : pystr :=
  match s with
  | [] => []
  | c :: s' =>
      if is_space c then
        (if in_run then sub_ws_aux true s' else UNDERSCORE :: sub_ws_aux true s')
      else c :: sub_ws_aux false s'
  end.

Definition sub_ws (s : pystr) : pystr := sub_ws_aux false s.

(** [re.sub(r"[^a-zA-Z0-9_]", "", s)] *)
Definition sub_nonword (s : pystr) : pystr := List.filter is_word s.

(** [safe_part] (main.py, lines 147-156). *)
Definition safe_part (value : pystr) : pystr :=
  let value := strip value in
  let value := sub_ws value in
  let value := sub_nonword value in
  value.

(** ** The sanitizer as the spec words it

    [trimmed v w]: [w] is [v] with its surrounding whitespace removed.
    [collapsed w t]: [t] is [w] with each maximal run of whitespace
    replaced by one underscore. *)
Definition trimmed (v w : pystr) : Prop :=
  exists pre suf, v = pre ++ w ++ suf /\
    Forall (fun c => is_space c = true) pre /\
    Forall (fun c => is_space c = true) suf /\
    (w = [] \/
     (exists c w', w = c :: w' /\ is_space c = false) /\
     (exists c w', w = w' ++ [c] /\ is_space c = false)).

Inductive collapsed : pystr -> pystr -> Prop :=
  | coll_nil : collapsed [] []
  | coll_char c w t :
      is_space c = false -> collapsed w t -> collapsed (c :: w) (c :: t)
  | coll_run r w t :
      r <> [] -> Forall (fun c => is_space c = true) r ->
      (forall c w', w = c :: w' -> is_space c = false) ->
      collapsed w t -> collapsed (r ++ w) (UNDERSCORE :: t).

(** ** [format_mmddyyyy] (main.py, lines 124-136)

    The two library calls, [datetime.fromisoformat] and
    [dt.strftime("%m/%d/%Y")], depend on the CPython version and the C
    library (the repository pins neither): from 3.11 on [fromisoformat]
    also accepts the basic ([YYYYMMDD]) and ISO week-date forms, and
    whether [%Y] zero-pads a year below 1000 depends on the version and
    the platform.  They are kept abstract ([date_lib]) under the contract
    [date_lib_ok] that every CPython 3.7+ meets. *)
Definition is_digit (c : Z) : bool := (48 <=? c) && (c <=? 57).

Fixpoint parse_digits_acc (acc : Z) (l : pystr) : option Z :=
  match l with
  | [] => Some acc
  | c :: l' => if is_digit c then parse_digits_acc (acc * 10 + (c - 48)) l' else None
  end.

Definition parse_digits (l : pystr) : option Z := parse_digits_acc 0 l.

Definition digits_value (l : pystr) : Z :=
  fold_left (fun acc c => acc * 10 + (c - 48)) l 0.

Definition DASH : Z := 45.

Definition is_leap (y : Z) : bool :=
  (y mod 4 =? 0) && (negb (y mod 100 =? 0) || (y mod 400 =? 0)).

Definition days_in_month (y m : Z) : Z :=
  if m =? 2 then (if is_leap y then 29 else 28)
  else if (m =? 4) || (m =? 6) || (m =? 9) || (m =? 11) then 30
  else 31.

(** [check_date_args]: MINYEAR = 1, MAXYEAR = 9999. *)
Definition check_date_args (y m d : Z) : bool :=
  (1 <=? y) && (y <=? 9999) && (1 <=? m) && (m <=? 12) &&
  (1 <=? d) && (d <=? days_in_month y m).

(** Decimal digits of a non-negative integer, without padding. *)
Fixpoint dec_fuel (fuel : nat) (v : Z) : pystr :=
  match fuel with
  | O => []
  | S f => if v <? 10 then [48 + v] else dec_fuel f (v / 10) ++ [48 + v mod 10]
  end.

Definition dec (v : Z) : pystr := dec_fuel 20 v.

(** Zero-padded decimal of fixed width. *)
Fixpoint zpad (n : nat) (v : Z) : pystr :=
  match n with
  | O => []
  | S n' => zpad n' (v / 10) ++ [48 + v mod 10]
  end.

(** The date library: [fromiso s] is [Some (year, month, day)] of
    [datetime.fromisoformat(s)], or [None] when it raises; [strftime_Y y]
    is what [%Y] prints for the year [y]. *)
Record date_lib := {
  fromiso : pystr -> option (Z * Z * Z);
  strftime_Y : Z -> pystr
}.

(** What every CPython 3.7+ guarantees: a parsed date is a valid
    [datetime] date; every accepted string starts with four ASCII digits
    (the year field of all the accepted forms); [YYYY-MM-DD] with a valid
    date is accepted with those fields; [%Y] prints a year of four digits
    as those digits and a smaller year either unpadded (glibc) or padded
    to four digits. *)
Record date_lib_ok (L : date_lib) : Prop := {
  fromiso_valid : forall s y m d, fromiso L s = Some (y, m, d) -> check_date_args y m d = true;
  fromiso_year_digits : forall s r, fromiso L s = Some r ->
    exists y1 y2 y3 y4 rest, s = y1 :: y2 :: y3 :: y4 :: rest /\
      Forall (fun c => is_digit c = true) [y1; y2; y3; y4];
  fromiso_date : forall y1 y2 y3 y4 m1 m2 d1 d2,
    Forall (fun c => is_digit c = true) [y1; y2; y3; y4; m1; m2; d1; d2] ->
    check_date_args (digits_value [y1; y2; y3; y4]) (digits_value [m1; m2])
      (digits_value [d1; d2]) = true ->
    fromiso L [y1; y2; y3; y4; DASH; m1; m2; DASH; d1; d2] =
      Some (digits_value [y1; y2; y3; y4], digits_value [m1; m2], digits_value [d1; d2]);
  strftime_Y_4 : forall y, 1000 <= y <= 9999 -> strftime_Y L y = zpad 4 y;
  strftime_Y_small : forall y, 1 <= y < 1000 -> strftime_Y L y = dec y \/ strftime_Y L y = zpad 4 y
}.

(** [dt.strftime("%m/%d/%Y")]: [%m] and [%d] are zero-padded to two
    digits. *)
Definition strftime_mdY (L : date_lib) (y m d : Z) : pystr :=
  zpad 2 m ++ [SLASH] ++ zpad 2 d ++ [SLASH] ++ strftime_Y L y.

(** The [try]/[except Exception] of [format_mmddyyyy]: every parse
    failure falls back to the input. *)
Definition format_mmddyyyy (L : date_lib) (date_str : pystr) : pystr :=
  match fromiso L date_str with
  | Some (y, m, d) => strftime_mdY L y m d
  | None => date_str
  end.

(** A sample date library: the [YYYY-MM-DD] grammar of CPython 3.7-3.10
    with no time part, and [%Y] as glibc prints it under CPython 3.11. *)
Definition parse_isoformat_date (s : pystr) : option (Z * Z * Z) :=
  match s with
  | y1 :: y2 :: y3 :: y4 :: s1 :: m1 :: m2 :: s2 :: d1 :: d2 :: _ =>
      match parse_digits [y1; y2; y3; y4] with
      | None => None
      | Some y =>
          if negb (s1 =? DASH) then None else
          match parse_digits [m1; m2] with
          | None => None
          | Some m =>
              if negb (s2 =? DASH) then None else
              match parse_digits [d1; d2] with
              | None => None
              | Some d => Some (y, m, d)
              end
          end
      end
  | _ => None
  end.

Definition sample_fromiso (s : pystr) : option (Z * Z * Z) :=
  match parse_isoformat_date s with
  | None => None
  | Some (y, m, d) =>
      if (length s =? 10)%nat && check_date_args y m d then Some (y, m, d) else None
  end.

Definition sample_date_lib : date_lib := {| fromiso := sample_fromiso; strftime_Y := dec |}.

(** ** [f"{VERIFY_BASE_URL.rstrip('/')}/{cert_no}"] (main.py, line 182) *)
Definition verify_url (base cert_no : pystr) : pystr :=
  rstrip_by (fun c => c =? SLASH) base ++ [SLASH] ++ cert_no.

(** ** [str.replace(old, new)] for a non-empty [old]: every
    non-overlapping occurrence, left to right.  The fuel is the length of
    the scanned string; each step consumes at least one character. *)
Fixpoint is_prefix (p s : pystr) : bool :=
  match p, s with
  | [], _ => true
  | a :: p', b :: s' => (a =? b) && is_prefix p' s'
  | _ :: _, [] => false
  end.

Fixpoint replace_fuel (fuel : nat) (old new s : pystr) : pystr :=
  match fuel with
  | O => s
  | S f =>
      match s with
      | [] => []
      | c :: s' =>
          if is_prefix old s then new ++ replace_fuel f old new (drop (length old) s)
          else c :: replace_fuel f old new s'
      end
  end.

Definition py_replace (s old new : pystr) : pystr :=
  replace_fuel (length s) old new s.

(** [str.count(sub)] for a non-empty [sub]. *)
Fixpoint count_fuel (fuel : nat) (sub s : pystr) : nat :=
  match fuel with
  | O => O
  | S f =>
      match s with
      | [] => O
      | _ :: s' =>
          if is_prefix sub s then S (count_fuel f sub (drop (length sub) s))
          else count_fuel f sub s'
      end
  end.

Definition py_count (s sub : pystr) : nat := count_fuel (length s) sub s.

(** [sep.join(parts)] *)
Fixpoint py_join (sep : pystr) (parts : list pystr) : pystr :=
  match parts with
  | [] => []
  | [x] => x
  | x :: rest => x ++ sep ++ py_join sep rest
  end.

(** ** The request handler [generate_docx] (main.py, lines 165-269) *)

Abbreviation bytes := (list Z).

(** Exceptions that can escape the statements of the [try] block. *)
Inductive exn :=
  | HTTPException (status_code : Z) (detail : pystr)
  | NoSuchKey (key : pystr)            (* botocore error of [get_object] *)
  | TemplateError                      (* docxtpl: bad template or render *)
  | QRError                            (* qrcode: data does not fit *)
  | ImageError                         (* PIL: open / convert / save *)
  | CalledProcessError (returncode : Z)  (* [subprocess.run(check=True)] *)
  | RuntimeError (msg : pystr)
  | PutError (key : pystr)             (* botocore error of [put_object] *)
  | ClientError (msg : pystr).         (* botocore error of [boto3.client] *)

(** Calls to the outside world, in the order they are made. *)
Inductive event :=
  | EvGet (key : pystr)                (* [s3.get_object] *)
  | EvConvert (docx : bytes)           (* LibreOffice subprocess *)
  | EvPut (key : pystr) (body : bytes).  (* [s3.put_object] *)

(** The render context: the text bindings in the order of the dict
    literal, and the two inline PNG images. *)
Record context := {
  ctx_text : list (pystr * pystr);
  ctx_qr_code : bytes;
  ctx_instructor_signature : bytes
}.

(** What the external world answers. *)
Record env := {
  e_store : gmap pystr bytes;               (* bucket contents *)
  e_tpl_ok : bytes -> bool;                 (* [DocxTemplate(BytesIO(b))] *)
  e_qr : pystr -> option bytes;             (* [qrcode.make] + PNG save *)
  e_img : bytes -> option bytes;            (* PIL open, RGBA, thumbnail, PNG *)
  e_render : bytes -> context -> option bytes;  (* render + save *)
  e_convert_exit : bytes -> Z;              (* LibreOffice exit status *)
  e_convert_out : bytes -> option bytes;    (* [input.pdf] after exit 0 *)
  e_put_ok : pystr -> bool;                 (* [put_object] succeeds *)
  e_date : date_lib                         (* [fromisoformat], [strftime] *)
}.

(** Process configuration read at start-up. *)
Record config := {
  INTERNAL_API_KEY : pystr;
  VERIFY_BASE_URL : pystr
}.

(** [GenerateDocxPayload]; [data] is a JSON object of strings. *)
Record payload := {
  templateKey : pystr;
  signatureKey : pystr;
  outputKey : pystr;
  data : gmap pystr pystr
}.

(** A JSON value where [GenerateDocxPayload] expects a [str]. *)
Inductive json_str :=
  | JStr (s : pystr)
  | JNotStr.                           (* number, boolean, null, array or object *)

(** A JSON value where it expects a [dict].  The model covers [data]
    objects whose values are strings. *)
Inductive json_obj :=
  | JObj (d : gmap pystr pystr)
  | JNotObj.                           (* any JSON value that is not an object *)

(** The fields of a JSON object body ([None]: the key is absent). *)
Record json_body := {
  rq_templateKey : option json_str;
  rq_signatureKey : option json_str;
  rq_outputKey : option json_str;
  rq_data : option json_obj
}.

(** What FastAPI's body reading produces: [request.json()] is called for
    a JSON or absent content type; it raises [JSONDecodeError] on invalid
    JSON and another exception (a [UnicodeDecodeError]) on bytes it cannot
    decode.  An empty body, a body of another content type or a JSON value
    that is not an object all fail validation of the model. *)
Inductive raw_request :=
  | BodyUndecodable
  | BodyInvalidJson
  | BodyNotObject
  | BodyObject (o : json_body).

Inductive detail :=
  | DText (msg : pystr)                (* a message string *)
  | DStr (e : exn)                     (* [str(e)] of a library exception *)
  | DValidation.                       (* FastAPI's list of schema errors *)

Inductive response :=
  | RespOk (key : pystr)               (* [{"key": pdf_key}] *)
  | RespError (status : Z) (d : detail).  (* [{"detail": ...}] *)

(** A state-and-exception monad: the trace of external calls is threaded,
    an exception aborts the rest of the block. *)
Definition M (A : Type) : Type := list event -> list event * (exn + A).

Global Instance M_ret : MRet M := fun A x tr => (tr, inr x).
Global Instance M_bind : MBind M := fun A B k m tr =>
  match m tr with
  | (tr', inl e) => (tr', inl e)
  | (tr', inr x) => k x tr'
  end.

Definition raise {A} (e : exn) : M A := fun tr => (tr, inl e).
Definition emit (ev : event) : M unit := fun tr => (tr ++ [ev], inr tt).

Definition of_option {A} (e : exn) (o : option A) : M A :=
  match o with Some x => mret x | None => raise e end.

(** [payload.data.get(k, "")] *)
Definition get (d : gmap pystr pystr) (k : pystr) : pystr :=
  match d !! k with Some v => v | None => [] end.

(** [str(e)]: Starlette's [HTTPException.__str__] is
    [f"{status_code}: {detail}"]; [RuntimeError(msg)] prints [msg]. *)
Definition str_exn (e : exn) : detail :=
  match e with
  | HTTPException c d => DText (dec c ++ u ": " ++ d)
  | RuntimeError m => DText m
  | _ => DStr e
  end.

(** [download_from_r2] *)
Definition download_from_r2 (E : env) (key : pystr) : M bytes :=
  emit (EvGet key) ;; of_option (NoSuchKey key) (e_store E !! key).

(** [convert_docx_to_pdf] (lines 73-105) *)
Definition convert_docx_to_pdf (E : env) (docx_bytes : bytes) : M bytes :=
  emit (EvConvert docx_bytes) ;;
  let rc := e_convert_exit E docx_bytes in
  if negb (rc =? 0) then raise (CalledProcessError rc) else
  of_option (RuntimeError (u "PDF conversion failed")) (e_convert_out E docx_bytes).

(** [s3.put_object(Key=pdf_key, ...)] (lines 256-261) *)
Definition put_object (E : env) (key : pystr) (body : bytes) : M unit :=
  emit (EvPut key body) ;;
  if e_put_ok E key then mret tt else raise (PutError key).

(** The dict literal [context] (lines 204-220). *)
Definition build_context (E : env) (d : gmap pystr pystr) (qr sig : bytes) : context := {|
  ctx_text := [
    (u "first_name", get d (u "first_name"));
    (u "middle_name", get d (u "middle_name"));
    (u "last_name", get d (u "last_name"));
    (u "training_date", format_mmddyyyy (e_date E) (get d (u "training_date")));
    (u "issue_date", format_mmddyyyy (e_date E) (get d (u "issue_date")));
    (u "certificate_number", get d (u "certificate_number"));
    (u "instructor_name", get d (u "instructor_name"))];
  ctx_qr_code := qr;
  ctx_instructor_signature := sig |}.

(** [filename_parts] (lines 238-243). *)
Definition filename_parts (cert_no first middle last : pystr) : list pystr :=
  let parts := [cert_no; first] in
  let parts := match middle with [] => parts | _ => parts ++ [middle] end in
  parts ++ [last].

(** [output_key] (lines 230-248), once the emptiness check has passed. *)
Definition output_key_of (d : gmap pystr pystr) : pystr :=
  let cert_no := safe_part (get d (u "certificate_number")) in
  let first := safe_part (get d (u "first_name")) in
  let middle := safe_part (get d (u "middle_name")) in
  let last := safe_part (get d (u "last_name")) in
  let filename := py_join (u "_") (filename_parts cert_no first middle last) ++ u ".docx" in
  u "certificates/" ++ filename.

Definition identity_ok (d : gmap pystr pystr) : bool :=
  negb (bool_decide (safe_part (get d (u "certificate_number")) = [])) &&
  negb (bool_decide (safe_part (get d (u "first_name")) = [])) &&
  negb (bool_decide (safe_part (get d (u "last_name")) = [])).

(** The body of the [try] block (lines 173-263). *)
Definition generate_body (C : config) (E : env) (p : payload) : M pystr :=
  template_bytes ← download_from_r2 E (templateKey p);
  (if e_tpl_ok E template_bytes then mret tt else raise TemplateError) ;;
  let cert_no := get (data p) (u "certificate_number") in
  if bool_decide (cert_no = []) then
    raise (HTTPException 400 (u "certificate_number missing")) else
  let url := verify_url (VERIFY_BASE_URL C) cert_no in
  qr_buf ← of_option QRError (e_qr E url);
  signature_bytes ← download_from_r2 E (signatureKey p);
  sign_buf ← of_option ImageError (e_img E signature_bytes);
  let ctx := build_context E (data p) qr_buf sign_buf in
  out ← of_option TemplateError (e_render E template_bytes ctx);
  if negb (identity_ok (data p)) then
    raise (HTTPException 400
      (u "certificate_number, first_name and last_name are required")) else
  let output_key := output_key_of (data p) in
  pdf_bytes ← convert_docx_to_pdf E out;
  let pdf_key := py_replace output_key (u ".docx") (u ".pdf") in
  put_object E pdf_key pdf_bytes ;;
  mret pdf_key.

(** [generate_docx]: the API-key check outside the [try], then the
    [except Exception] that turns every exception into a 500. *)
Definition generate_docx (C : config) (E : env) (api_key : option pystr) (p : payload)
    : list event * response :=
  if negb (bool_decide (api_key = Some (INTERNAL_API_KEY C))) then
    ([], RespError 403 (DText (u "Forbidden")))
  else
    match generate_body C E p [] with
    | (tr, inl e) => (tr, RespError 500 (str_exn e))
    | (tr, inr key) => (tr, RespOk key)
    end.

(** Pydantic 2 validation of [GenerateDocxPayload]: the three keys must
    be JSON strings and [data] a JSON object; extra keys are ignored. *)
Definition parse_payload (r : json_body) : option payload :=
  match rq_templateKey r, rq_signatureKey r, rq_outputKey r, rq_data r with
  | Some (JStr t), Some (JStr s), Some (JStr o), Some (JObj d) =>
      Some {| templateKey := t; signatureKey := s; outputKey := o; data := d |}
  | _, _, _, _ => None
  end.

(** [POST /generate-docx] in FastAPI's request handler ([routing.py]):
    the body is read and validated before the endpoint runs; an exception
    other than [JSONDecodeError] while reading it gives 400, a JSON or
    validation error gives 422. *)
Definition handle_request (C : config) (E : env) (api_key : option pystr) (r : raw_request)
    : list event * response :=
  match r with
  | BodyUndecodable => ([], RespError 400 (DText (u "There was an error parsing the body")))
  | BodyInvalidJson | BodyNotObject => ([], RespError 422 DValidation)
  | BodyObject o =>
      match parse_payload o with
      | None => ([], RespError 422 DValidation)
      | Some p => generate_docx C E api_key p
      end
  end.

Example safe_part_ex1 : safe_part (u "  John  Paul-Smith ") = u "John_PaulSmith".
Proof. reflexivity. Qed.
Example format_ex1 : format_mmddyyyy sample_date_lib (u "2024-03-05") = u "03/05/2024".
Proof. reflexivity. Qed.
Example format_ex2 : format_mmddyyyy sample_date_lib (u "not-a-date") = u "not-a-date".
Proof. reflexivity. Qed.
Example format_ex3 : format_mmddyyyy sample_date_lib (u "2023-02-29") = u "2023-02-29".
Proof. reflexivity. Qed.
Example replace_ex : py_replace (u "a.docx.docx") (u ".docx") (u ".pdf") = u "a.pdf.pdf".
Proof. reflexivity. Qed.
Example url_ex : verify_url (u "https://v.io//") (u "C1") = u "https://v.io/C1".
Proof. reflexivity. Qed.

(** ** Start-up (main.py, lines 21-67) *)

Definition COMMA : Z := 44.

(** [s.split(sep)] for a one-character separator: every separator ends a
    field, so [""] splits into [[""]]. *)
Fixpoint split_aux (sep : Z) (cur : pystr) (s : pystr) : list pystr :=
  match s with
  | [] => [rev cur]
  | c :: s' => if c =? sep then rev cur :: split_aux sep [] s' else split_aux sep (c :: cur) s'
  end.

Definition py_split (s : pystr) (sep : Z) : list pystr := split_aux sep [] s.

(** [[o.strip() for o in cors_origins.split(",") if o.strip()]] (line 33). *)
Definition parse_origins (cors_origins : pystr) : list pystr :=
  map strip (List.filter (fun o => negb (bool_decide (strip o = []))) (py_split cors_origins COMMA)).

(** What the module builds at import time. *)
Record app_module := {
  app_config : config;
  allowed_origins : list pystr;
  app_LIBREOFFICE_PATH : option pystr;
  R2_ENDPOINT : pystr
}.

(** [os.getenv(name)] after [load_dotenv()]: [environ] is the process
    environment; an unset variable is [None]. *)
Definition getenv (environ : gmap pystr pystr) (name : pystr) : option pystr := environ !! name.

(** [f"{x}"] of an [Optional[str]]. *)
Definition fstr_opt (x : option pystr) : pystr :=
  match x with Some s => s | None => u "None" end.

(** The module body (lines 21-67): [if not INTERNAL_API_KEY: raise
    RuntimeError(...)], then the same for [VERIFY_BASE_URL], then
    [boto3.client("s3", endpoint_url=R2_ENDPOINT, aws_access_key_id=...,
    aws_secret_access_key=..., region_name="auto")].  [s3_client endpoint
    key_id secret] is the exception that call raises, if any: botocore
    rejects an endpoint without a valid host name ([ValueError]) and a
    single credential without the other ([PartialCredentialsError]). *)
Definition startup (s3_client : pystr -> option pystr -> option pystr -> option exn)
    (environ : gmap pystr pystr) : exn + app_module :=
  let libreoffice := getenv environ (u "LIBREOFFICE_PATH") in
  let cors_origins := match getenv environ (u "CORS_ORIGINS") with Some v => v | None => [] end in
  let origins := parse_origins cors_origins in
  match getenv environ (u "INTERNAL_API_KEY") with
  | None | Some [] => inl (RuntimeError (u "INTERNAL_API_KEY not set"))
  | Some key =>
      let endpoint := u "https://" ++ fstr_opt (getenv environ (u "R2_ACCOUNT_ID")) ++
                      u ".r2.cloudflarestorage.com" in
      match getenv environ (u "VERIFY_BASE_URL") with
      | None | Some [] => inl (RuntimeError (u "VERIFY_BASE_URL not set"))
      | Some base =>
          match s3_client endpoint (getenv environ (u "R2_ACCESS_KEY_ID"))
                  (getenv environ (u "R2_SECRET_ACCESS_KEY")) with
          | Some e => inl e
          | None =>
              inr {| app_config := {| INTERNAL_API_KEY := key; VERIFY_BASE_URL := base |};
                     allowed_origins := origins;
                     app_LIBREOFFICE_PATH := libreoffice;
                     R2_ENDPOINT := endpoint |}
          end
      end
  end.

(** ** Sample configuration and external world *)
Definition cfg0 : config := {|
  INTERNAL_API_KEY := u "secret";
  VERIFY_BASE_URL := u "https://verify.example.com/" |}.

Definition store0 : gmap pystr bytes := <[u "t1" := [1]]> (<[u "s1" := [2]]> ∅).

Definition env_with (rc : Z) : env := {|
  e_store := store0;
  e_tpl_ok := fun _ => true;
  e_qr := fun _ => Some [3];
  e_img := fun b => Some b;
  e_render := fun _ _ => Some [4];
  e_convert_exit := fun _ => rc;
  e_convert_out := fun _ => Some [5];
  e_put_ok := fun _ => true;
  e_date := sample_date_lib |}.

Definition env0 : env := env_with 0.

Definition jane_data : gmap pystr pystr :=
  <[u "certificate_number" := u "CERT-001"]> (<[u "first_name" := u "Jane"]>
  (<[u "last_name" := u "Doe"]> (<[u "training_date" := u "2024-01-15"]> ∅))).

Definition jane_raw (o : option pystr) : raw_request := BodyObject {|
  rq_templateKey := Some (JStr (u "t1")); rq_signatureKey := Some (JStr (u "s1"));
  rq_outputKey := option_map JStr o; rq_data := Some (JObj jane_data) |}.

Example run_jane : handle_request cfg0 env0 (Some (u "secret")) (jane_raw (Some (u "x")))
  = ([EvGet (u "t1"); EvGet (u "s1"); EvConvert [4];
      EvPut (u "certificates/CERT001_Jane_Doe.pdf") [5]],
     RespOk (u "certificates/CERT001_Jane_Doe.pdf")).
Proof. vm_compute. reflexivity. Qed.

(** * Proofs *)

(** ** The sanitizer *)

Ltac zcmp :=
  repeat match goal with
  | |- context [?a <=? ?b] =>
      (rewrite (proj2 (Z.leb_le a b)) by lia) ||
      (rewrite (proj2 (Z.leb_gt a b)) by lia)
  | |- context [?a =? ?b] =>
      (rewrite (proj2 (Z.eqb_eq a b)) by lia) ||
      (rewrite (proj2 (Z.eqb_neq a b)) by lia)
  end.

Lemma word_not_space (c : Z) : is_word c = true -> is_space c = false.
Proof.
  unfold is_word. intros H.
  repeat (apply orb_true_iff in H; destruct H as [H|H]);
    repeat (apply andb_true_iff in H; destruct H as [H ?]);
    repeat match goal with
    | H : (_ <=? _) = true |- _ => apply Z.leb_le in H
    | H : (_ =? _) = true |- _ => apply Z.eqb_eq in H; subst
    end;
    unfold is_space; zcmp; reflexivity.
Qed.

Lemma underscore_word : is_word UNDERSCORE = true.
Proof. reflexivity. Qed.

Lemma underscore_not_space : is_space UNDERSCORE = false.
Proof. reflexivity. Qed.

Lemma lstrip_spaces_app (pre x : pystr) :
  Forall (fun c => is_space c = true) pre -> lstrip (pre ++ x) = lstrip x.
Proof.
  induction 1 as [|c pre Hc _ IH]; [reflexivity|].
  unfold lstrip in *. simpl. rewrite Hc. exact IH.
Qed.

Lemma lstrip_all_spaces (pre : pystr) :
  Forall (fun c => is_space c = true) pre -> lstrip pre = [].
Proof.
  intros H. rewrite <- (app_nil_r pre). rewrite lstrip_spaces_app by exact H.
  reflexivity.
Qed.

Lemma lstrip_head_nonspace (c : Z) (x : pystr) :
  is_space c = false -> lstrip (c :: x) = c :: x.
Proof. intros H. unfold lstrip. simpl. rewrite H. reflexivity. Qed.

Lemma lstrip_by_decomp (p : Z -> bool) (v : pystr) :
  exists pre, v = pre ++ lstrip_by p v /\ Forall (fun c => p c = true) pre /\
    (forall c w, lstrip_by p v = c :: w -> p c = false).
Proof.
  induction v as [|c v IH].
  - exists []. repeat split; [constructor| intros ? ? H; discriminate].
  - simpl. destruct (p c) eqn:Hc.
    + destruct IH as (pre & Hv & Hpre & Hh).
      exists (c :: pre). simpl. rewrite <- Hv. repeat split; auto.
    + exists []. simpl. repeat split; [constructor|].
      intros c' w H. injection H as -> ->. exact Hc.
Qed.

Lemma lstrip_decomp (v : pystr) :
  exists pre, v = pre ++ lstrip v /\ Forall (fun c => is_space c = true) pre /\
    (forall c w, lstrip v = c :: w -> is_space c = false).
Proof. exact (lstrip_by_decomp is_space v). Qed.

Lemma strip_trimmed (v : pystr) : trimmed v (strip v).
Proof.
  destruct (lstrip_decomp v) as (pre & Hv & Hpre & Hh).
  set (l := lstrip v) in *.
  destruct (lstrip_decomp (rev l)) as (pre2 & Hl & Hpre2 & Hh2).
  unfold strip, rstrip, rstrip_by. fold (lstrip v). fold l.
  fold (lstrip (rev l)).
  assert (Hl' : l = rev (lstrip (rev l)) ++ rev pre2).
  { rewrite <- rev_app_distr, <- Hl, rev_involutive. reflexivity. }
  exists pre, (rev pre2). split; [|split; [exact Hpre|split]].
  - rewrite Hv at 1. rewrite Hl' at 1. reflexivity.
  - apply Forall_rev. exact Hpre2.
  - destruct (lstrip (rev l)) as [|c w] eqn:E; [left; reflexivity|right].
    split.
    + destruct (rev (c :: w)) as [|c' w'] eqn:E'.
      * apply (f_equal (@length Z)) in E'. rewrite length_rev in E'. discriminate.
      * exists c', w'. split; [reflexivity|].
        apply (Hh c' (w' ++ rev pre2)). exact Hl'.
    + exists c, (rev w). split; [simpl; reflexivity|].
      apply (Hh2 c w). reflexivity.
Qed.

Lemma rstrip_rev (s : pystr) : rstrip s = rev (lstrip (rev s)).
Proof. reflexivity. Qed.

Lemma trimmed_unique (v w : pystr) : trimmed v w -> w = strip v.
Proof.
  intros (pre & suf & -> & Hpre & Hsuf & Hw).
  unfold strip. rewrite lstrip_spaces_app by exact Hpre.
  rewrite rstrip_rev.
  destruct Hw as [->|((c & w' & -> & Hc) & (c' & w'' & Hw'' & Hc'))].
  - simpl. rewrite (lstrip_all_spaces suf Hsuf). reflexivity.
  - rewrite <- app_comm_cons, lstrip_head_nonspace by exact Hc.
    rewrite app_comm_cons, Hw''.
    rewrite rev_app_distr, lstrip_spaces_app by (apply Forall_rev; exact Hsuf).
    rewrite rev_app_distr. simpl.
    rewrite lstrip_head_nonspace by exact Hc'. simpl.
    rewrite rev_involutive. reflexivity.
Qed.

Lemma sub_ws_spaces_app (r w : pystr) :
  Forall (fun c => is_space c = true) r -> sub_ws_aux true (r ++ w) = sub_ws_aux true w.
Proof. induction 1 as [|c r Hc _ IH]; [reflexivity|]. simpl. rewrite Hc. exact IH. Qed.

Lemma sub_ws_true_false (w : pystr) :
  (forall c w', w = c :: w' -> is_space c = false) ->
  sub_ws_aux true w = sub_ws_aux false w.
Proof.
  destruct w as [|c w]; [reflexivity|]. intros H.
  simpl. rewrite (H c w eq_refl). reflexivity.
Qed.

Lemma collapsed_sub_ws (w t : pystr) : collapsed w t -> t = sub_ws w.
Proof.
  unfold sub_ws.
  induction 1 as [|c w t Hc _ IH|r w t Hr Hsp Hw _ IH].
  - reflexivity.
  - simpl. rewrite Hc. f_equal. exact IH.
  - destruct r as [|c r]; [congruence|].
    inversion Hsp as [|? ? Hc Hr']; subst.
    simpl. rewrite Hc. f_equal.
    rewrite sub_ws_spaces_app by exact Hr'.
    symmetry. apply sub_ws_true_false. exact Hw.
Qed.

Lemma collapsed_exists (w : pystr) : collapsed w (sub_ws w).
Proof.
  unfold sub_ws.
  remember (length w) as n eqn:Hn. revert w Hn.
  induction n as [n IH] using lt_wf_ind. intros w Hn.
  destruct w as [|c w']; [constructor|].
  destruct (is_space c) eqn:Hc.
  - destruct (lstrip_decomp w') as (pre & Hw' & Hpre & Hh).
    set (rest := lstrip w') in *.
    assert (Hlen : (length rest < n)%nat).
    { pose proof (f_equal (@length Z) Hw') as L. rewrite length_app in L. subst n. simpl. lia. }
    simpl. rewrite Hc. rewrite Hw'.
    rewrite sub_ws_spaces_app by exact Hpre.
    rewrite sub_ws_true_false by exact Hh.
    change (c :: pre ++ rest) with ((c :: pre) ++ rest).
    apply coll_run.
    + discriminate.
    + constructor; assumption.
    + exact Hh.
    + exact (IH _ Hlen rest eq_refl).
  - simpl. rewrite Hc. apply coll_char; [exact Hc|].
    apply (IH (length w')); [subst n; simpl; lia|reflexivity].
Qed.

Lemma lstrip_words (l : pystr) :
  Forall (fun c => is_word c = true) l -> lstrip l = l.
Proof.
  destruct l as [|c l]; [reflexivity|]. intros H. inversion H; subst.
  apply lstrip_head_nonspace, word_not_space. assumption.
Qed.

Lemma safe_part_words_fixed (x : pystr) :
  Forall (fun c => is_word c = true) x -> safe_part x = x.
Proof.
  intros H. unfold safe_part, strip.
  rewrite (lstrip_words x H), rstrip_rev.
  rewrite (lstrip_words (rev x)) by (apply Forall_rev; exact H).
  rewrite rev_involutive.
  unfold sub_ws, sub_nonword.
  induction H as [|c x Hc _ IH]; [reflexivity|].
  simpl. rewrite (word_not_space c Hc). simpl. rewrite Hc. f_equal. exact IH.
Qed.

Lemma sub_nonword_words (t : pystr) : Forall (fun c => is_word c = true) (sub_nonword t).
Proof.
  apply Forall_forall. intros c Hc. unfold sub_nonword in Hc.
  apply list_elem_of_In, filter_In in Hc. apply Hc.
Qed.

(** C6: [safe_part] trims the surrounding whitespace, replaces each maximal
    run of whitespace by one underscore and then drops every character
    outside [[A-Za-z0-9_]].  Every string has a trimmed form and a
    collapsed form, and whenever [w] is the trimmed form of [v] and [t]
    the collapsed form of [w], [safe_part v] is [t] without the
    non-word characters. *)
Theorem safe_part_trim_collapse_filter :
  (forall v : pystr, exists w t, trimmed v w /\ collapsed w t) /\
  (forall v w t : pystr, trimmed v w -> collapsed w t -> safe_part v = sub_nonword t).
Proof.
  split.
  - intros v. exists (strip v), (sub_ws (strip v)).
    split; [apply strip_trimmed|apply collapsed_exists].
  - intros v w t Ht Hc.
    apply trimmed_unique in Ht. apply collapsed_sub_ws in Hc. subst.
    reflexivity.
Qed.

(** C7: [safe_part] is idempotent. *)
Theorem safe_part_idempotent (x : pystr) : safe_part (safe_part x) = safe_part x.
Proof. apply safe_part_words_fixed, sub_nonword_words. Qed.

(** ** Date normalization *)


Lemma parse_digits_acc_ok (acc : Z) (l : pystr) :
  Forall (fun c => is_digit c = true) l ->
  parse_digits_acc acc l = Some (fold_left (fun a c => a * 10 + (c - 48)) l acc).
Proof.
  intros H. revert acc.
  induction H as [|c l Hc _ IH]; intros acc; [reflexivity|].
  simpl. rewrite Hc. apply IH.
Qed.





Lemma parse_digits_acc_digits (acc v : Z) (l : pystr) :
  parse_digits_acc acc l = Some v -> Forall (fun c => is_digit c = true) l.
Proof.
  revert acc. induction l as [|c l IH]; intros acc H; [apply List.Forall_nil|].
  simpl in H. destruct (is_digit c) eqn:Hc; [|discriminate].
  apply List.Forall_cons; [exact Hc|exact (IH _ H)].
Qed.

Lemma zpad_length (n : nat) (v : Z) : length (zpad n v) = n.
Proof. revert v. induction n as [|n IH]; intros v; [reflexivity|]. simpl. rewrite length_app, IH. simpl. lia. Qed.

Lemma dec_4digits (y : Z) : 1000 <= y <= 9999 -> dec y = zpad 4 y.
Proof.
  intros Hy.
  assert (H1 : (y <? 10) = false) by (apply Z.ltb_ge; lia).
  assert (H2 : (y / 10 <? 10) = false) by (apply Z.ltb_ge, Z.div_le_lower_bound; lia).
  assert (H3 : (y / 10 / 10 <? 10) = false)
    by (apply Z.ltb_ge; rewrite Z.div_div by lia; apply Z.div_le_lower_bound; lia).
  assert (H4 : (y / 10 / 10 / 10 <? 10) = true)
    by (apply Z.ltb_lt; rewrite !Z.div_div by lia; apply Z.div_lt_upper_bound; lia).
  assert (H5 : (y / 10 / 10 / 10) mod 10 = y / 10 / 10 / 10)
    by (apply Z.mod_small; rewrite !Z.div_div by lia; split;
        [apply Z.div_pos; lia|apply Z.div_lt_upper_bound; lia]).
  unfold dec. cbn [dec_fuel]. rewrite H1, H2, H3, H4. cbn [zpad].
  rewrite H5. rewrite <- !app_assoc. reflexivity.
Qed.

Lemma digits_forall_split (a b c d e f g h : Z) :
  Forall (fun x => is_digit x = true) [a; b; c; d; e; f; g; h] ->
  Forall (fun x => is_digit x = true) [a; b; c; d] /\
  Forall (fun x => is_digit x = true) [e; f] /\
  Forall (fun x => is_digit x = true) [g; h].
Proof.
  intros H. rewrite !Forall_cons in H.
  repeat split; repeat (apply List.Forall_cons; [tauto|]); apply List.Forall_nil.
Qed.





Lemma sample_date_lib_ok : date_lib_ok sample_date_lib.
Proof.
  split; cbn [fromiso strftime_Y sample_date_lib].
  - intros s y m d H. unfold sample_fromiso in H.
    destruct (parse_isoformat_date s) as [[[y' m'] d']|]; [|discriminate].
    destruct ((length s =? 10)%nat && check_date_args y' m' d') eqn:Hb; [|discriminate].
    injection H as <- <- <-. apply andb_true_iff in Hb. tauto.
  - intros s r H. unfold sample_fromiso in H.
    destruct (parse_isoformat_date s) as [[[y m] d]|] eqn:Hp; [|discriminate].
    unfold parse_isoformat_date in Hp.
    destruct s as [|y1 [|y2 [|y3 [|y4 [|s1 [|m1 [|m2 [|s2 [|d1 [|d2 rest]]]]]]]]]];
      try discriminate.
    destruct (parse_digits [y1; y2; y3; y4]) eqn:Hy; [|discriminate].
    exists y1, y2, y3, y4, (s1 :: m1 :: m2 :: s2 :: d1 :: d2 :: rest).
    split; [reflexivity|exact (parse_digits_acc_digits _ _ _ Hy)].
  - intros y1 y2 y3 y4 m1 m2 d1 d2 Hd Hdate.
    destruct (digits_forall_split _ _ _ _ _ _ _ _ Hd) as (Hy & Hm & Hdd).
    unfold sample_fromiso, parse_isoformat_date, parse_digits.
    rewrite (parse_digits_acc_ok 0 _ Hy), (parse_digits_acc_ok 0 _ Hm),
      (parse_digits_acc_ok 0 _ Hdd).
    cbn [negb]. rewrite Z.eqb_refl. cbn [negb].
    fold (digits_value [y1; y2; y3; y4]) (digits_value [m1; m2]) (digits_value [d1; d2]).
    rewrite Hdate. reflexivity.
  - exact dec_4digits.
  - intros y _. left. reflexivity.
Qed.


(** ** Running the handler *)

Ltac run_in H :=
  unfold generate_docx, generate_body, download_from_r2, convert_docx_to_pdf,
    put_object, of_option, emit, raise, mbind, mret, M_bind, M_ret in H;
  cbn beta iota in H;
  repeat match type of H with
  | context [match ?x with _ => _ end] =>
      lazymatch x with
      | context [match _ with _ => _ end] => fail
      | _ => destruct x eqn:?; cbn beta iota in H
      end
  end.

Lemma generate_body_ok (C : config) (E : env) (p : payload) (tr : list event) (key : pystr) :
  generate_body C E p [] = (tr, inr key) ->
  exists tb sb qr sig out pdf,
    e_store E !! templateKey p = Some tb /\
    e_store E !! signatureKey p = Some sb /\
    e_render E tb (build_context E (data p) qr sig) = Some out /\
    identity_ok (data p) = true /\
    e_convert_exit E out = 0 /\
    e_convert_out E out = Some pdf /\
    e_put_ok E key = true /\
    key = py_replace (output_key_of (data p)) (u ".docx") (u ".pdf") /\
    tr = [EvGet (templateKey p); EvGet (signatureKey p); EvConvert out; EvPut key pdf].
Proof.
  intros H. run_in H; try discriminate.
  injection H as <- <-.
  apply negb_false_iff in Heqb1, Heqb2. apply Z.eqb_eq in Heqb2.
  exists l, l1, l0, l2, l3, l4. repeat split; assumption.
Qed.

Lemma generate_docx_ok (C : config) (E : env) (api : option pystr) (p : payload)
    (tr : list event) (key : pystr) :
  generate_docx C E api p = (tr, RespOk key) ->
  api = Some (INTERNAL_API_KEY C) /\ generate_body C E p [] = (tr, inr key).
Proof.
  unfold generate_docx. case_bool_decide as Hk; cbn [negb]; [|discriminate].
  destruct (generate_body C E p []) as [tr' [e|k]]; intros H; inversion H; subst.
  split; reflexivity.
Qed.

(** ** The derived key *)

Definition DOT : Z := 46.

Lemma word_not_dot (c : Z) : is_word c = true -> c <> DOT.
Proof.
  unfold is_word, DOT. intros H.
  repeat (apply orb_true_iff in H; destruct H as [H|H]);
    repeat (apply andb_true_iff in H; destruct H as [H ?]);
    repeat match goal with
    | H : (_ <=? _) = true |- _ => apply Z.leb_le in H
    | H : (_ =? _) = true |- _ => apply Z.eqb_eq in H
    end; lia.
Qed.

Lemma py_join_words (sep : pystr) (parts : list pystr) :
  Forall (fun c => is_word c = true) sep ->
  Forall (fun x => Forall (fun c => is_word c = true) x) parts ->
  Forall (fun c => is_word c = true) (py_join sep parts).
Proof.
  intros Hs. induction 1 as [|x parts Hx Hp IH]; [constructor|].
  destruct parts as [|y parts]; [exact Hx|].
  change (py_join sep (x :: y :: parts)) with (x ++ sep ++ py_join sep (y :: parts)).
  apply Forall_app; split; [exact Hx|]. apply Forall_app; split; assumption.
Qed.

(** The key without its [.docx] extension. *)
Definition key_stem (d : gmap pystr pystr) : pystr :=
  u "certificates/" ++
  py_join (u "_") (filename_parts (safe_part (get d (u "certificate_number")))
    (safe_part (get d (u "first_name"))) (safe_part (get d (u "middle_name")))
    (safe_part (get d (u "last_name")))).

Lemma output_key_stem (d : gmap pystr pystr) : output_key_of d = key_stem d ++ u ".docx".
Proof. unfold output_key_of, key_stem. rewrite <- app_assoc. reflexivity. Qed.

Lemma filename_parts_forall (Q : pystr -> Prop) (a b c e : pystr) :
  Q a -> Q b -> Q c -> Q e -> Forall Q (filename_parts a b c e).
Proof.
  intros Ha Hb Hc He. unfold filename_parts.
  apply Forall_app; split; [|apply List.Forall_cons; [exact He|apply List.Forall_nil]].
  destruct c as [|x c]; [|apply Forall_app; split].
  all: repeat (apply List.Forall_cons; [assumption|]); apply List.Forall_nil.
Qed.

Lemma key_stem_no_dot (d : gmap pystr pystr) : Forall (fun c => c <> DOT) (key_stem d).
Proof.
  unfold key_stem. apply Forall_app. split.
  - vm_compute. repeat (apply List.Forall_cons; [lia|]). apply List.Forall_nil.
  - eapply Forall_impl; [|intros c Hc; apply word_not_dot, Hc].
    apply py_join_words; [apply List.Forall_cons; [reflexivity|apply List.Forall_nil]|].
    apply filename_parts_forall; intros; apply sub_nonword_words.
Qed.

Lemma is_prefix_docx_other (c : Z) (l : pystr) :
  c <> DOT -> is_prefix (u ".docx") (c :: l) = false.
Proof.
  intros Hc. change (u ".docx") with (DOT :: u "docx"). cbn [is_prefix].
  rewrite (proj2 (Z.eqb_neq DOT c)) by congruence. reflexivity.
Qed.

Lemma replace_no_dot (n : nat) (s rest new : pystr) :
  Forall (fun c => c <> DOT) s -> (length s <= n)%nat ->
  replace_fuel n (u ".docx") new (s ++ rest)
  = s ++ replace_fuel (n - length s) (u ".docx") new rest.
Proof.
  intros Hs. revert n. induction Hs as [|c s Hc _ IH]; intros n Hn.
  - rewrite Nat.sub_0_r. reflexivity.
  - destruct n as [|n]; [simpl in Hn; lia|].
    cbn [app replace_fuel length]. rewrite is_prefix_docx_other by exact Hc.
    rewrite IH by (simpl in Hn; lia). reflexivity.
Qed.

Lemma count_no_dot (n : nat) (s rest : pystr) :
  Forall (fun c => c <> DOT) s -> (length s <= n)%nat ->
  count_fuel n (u ".docx") (s ++ rest) = count_fuel (n - length s) (u ".docx") rest.
Proof.
  intros Hs. revert n. induction Hs as [|c s Hc _ IH]; intros n Hn.
  - rewrite Nat.sub_0_r. reflexivity.
  - destruct n as [|n]; [simpl in Hn; lia|].
    cbn [app count_fuel length]. rewrite is_prefix_docx_other by exact Hc.
    apply IH. simpl in Hn; lia.
Qed.

Lemma replace_docx_stem (stem new : pystr) :
  Forall (fun c => c <> DOT) stem ->
  py_replace (stem ++ u ".docx") (u ".docx") new = stem ++ new.
Proof.
  intros Hs. unfold py_replace.
  rewrite replace_no_dot by (try exact Hs; rewrite length_app; lia).
  f_equal. rewrite length_app.
  replace (length stem + length (u ".docx") - length stem)%nat with 5%nat by (simpl; lia).
  simpl. rewrite app_nil_r. reflexivity.
Qed.

Lemma count_docx_stem (stem : pystr) :
  Forall (fun c => c <> DOT) stem -> py_count (stem ++ u ".docx") (u ".docx") = 1%nat.
Proof.
  intros Hs. unfold py_count.
  rewrite count_no_dot by (try exact Hs; rewrite length_app; lia).
  rewrite length_app.
  replace (length stem + length (u ".docx") - length stem)%nat with 5%nat by (simpl; lia).
  reflexivity.
Qed.

Lemma join_filename_parts (a b m c : pystr) :
  py_join (u "_") (filename_parts a b m c) =
  a ++ u "_" ++ b ++ (match m with [] => [] | _ => u "_" ++ m end) ++ u "_" ++ c.
Proof.
  destruct m as [|x m]; [reflexivity|]. unfold filename_parts. cbn [app py_join].
  rewrite <- !app_assoc. reflexivity.
Qed.

Lemma success_key_stem (C : config) (E : env) (api : option pystr) (p : payload)
    (tr : list event) (key : pystr) :
  generate_docx C E api p = (tr, RespOk key) -> key = key_stem (data p) ++ u ".pdf".
Proof.
  intros H. apply generate_docx_ok in H as [_ H].
  apply generate_body_ok in H as (tb & sb & qr & sig & out & pdf & _ & _ & _ & _ & _ & _ & _ & Hk & _).
  rewrite Hk, output_key_stem. apply replace_docx_stem, key_stem_no_dot.
Qed.

(** C10: every sanitized component is made of [[A-Za-z0-9_]], so the
    derived key contains [.docx] exactly once, as its suffix; [replace]
    only changes that suffix to [.pdf], and the key returned on success is
    the derived key with [.pdf] in place of [.docx]. *)
Theorem docx_extension_rewrite :
  (forall d : gmap pystr pystr,
     Forall (fun c => c <> DOT) (key_stem d) /\
     output_key_of d = key_stem d ++ u ".docx" /\
     py_count (output_key_of d) (u ".docx") = 1%nat /\
     py_replace (output_key_of d) (u ".docx") (u ".pdf") = key_stem d ++ u ".pdf") /\
  (forall (C : config) (E : env) (api : option pystr) (p : payload)
          (tr : list event) (key : pystr),
     generate_docx C E api p = (tr, RespOk key) ->
     key = key_stem (data p) ++ u ".pdf").
Proof.
  split.
  - intros d. pose proof (key_stem_no_dot d) as Hs. rewrite output_key_stem.
    split; [exact Hs|split; [reflexivity|split]].
    + apply count_docx_stem, Hs.
    + apply replace_docx_stem, Hs.
  - exact success_key_stem.
Qed.

(** The payload with another [outputKey]. *)
Definition with_outputKey (p : payload) (o : pystr) : payload := {|
  templateKey := templateKey p; signatureKey := signatureKey p;
  outputKey := o; data := data p |}.

Lemma generate_docx_outputKey (C : config) (E : env) (api : option pystr) (p : payload) (o : pystr) :
  generate_docx C E api (with_outputKey p o) = generate_docx C E api p.
Proof. reflexivity. Qed.

(** C5 (as the code does it): a request that succeeds had non-empty
    sanitized certificate number, first and last name; its object is
    uploaded, as the last external call, under
    [certificates/{certNo}_{first}[_{middle}]_{last}.pdf] (the derived
    [.docx] key with the extension rewritten), the middle part and its
    underscore being absent when the sanitized middle name is empty; the
    caller's [outputKey] changes nothing. *)
Theorem stored_key_derivation (C : config) (E : env) (api : option pystr) (p : payload)
    (tr : list event) (key : pystr) :
  generate_docx C E api p = (tr, RespOk key) ->
  let cert_no := safe_part (get (data p) (u "certificate_number")) in
  let first := safe_part (get (data p) (u "first_name")) in
  let middle := safe_part (get (data p) (u "middle_name")) in
  let last := safe_part (get (data p) (u "last_name")) in
  cert_no <> [] /\ first <> [] /\ last <> [] /\
  key = u "certificates/" ++ cert_no ++ u "_" ++ first ++
        (match middle with [] => [] | _ => u "_" ++ middle end) ++
        u "_" ++ last ++ u ".pdf" /\
  (exists pdf tr', tr = tr' ++ [EvPut key pdf]) /\
  (forall o : pystr, generate_docx C E api (with_outputKey p o) = (tr, RespOk key)).
Proof.
  intros H. pose proof H as H'. pose proof H as H0.
  apply success_key_stem in H'.
  apply generate_docx_ok in H as [_ H].
  apply generate_body_ok in H as (tb & sb & qr & sig & out & pdf & _ & _ & _ & Hid & _ & _ & _ & _ & Htr).
  unfold identity_ok in Hid. rewrite !andb_true_iff, !negb_true_iff in Hid.
  destruct Hid as [[H1 H2] H3].
  apply bool_decide_eq_false in H1, H2, H3.
  cbv zeta. split; [exact H1|split; [exact H2|split; [exact H3|split; [|split]]]].
  - rewrite H'. unfold key_stem. rewrite join_filename_parts, <- !app_assoc.
    reflexivity.
  - exists pdf, [EvGet (templateKey p); EvGet (signatureKey p); EvConvert out].
    exact Htr.
  - intros o. rewrite generate_docx_outputKey. exact H0.
Qed.

(** C9: once the converter has been run on the rendered document, a
    non-zero exit status makes the request fail with
    [CalledProcessError] (reported as a 500), while a zero exit status
    without an output file fails with the distinct [RuntimeError("PDF
    conversion failed")]; in both cases nothing is uploaded. *)
Theorem conversion_failure_no_publish (C : config) (E : env) (api : option pystr)
    (p : payload) (tr : list event) (r : response) (out : bytes) :
  generate_docx C E api p = (tr, r) ->
  In (EvConvert out) tr ->
  (e_convert_exit E out <> 0 ->
     r = RespError 500 (DStr (CalledProcessError (e_convert_exit E out))) /\
     (forall k b, ~ In (EvPut k b) tr)) /\
  (e_convert_exit E out = 0 -> e_convert_out E out = None ->
     r = RespError 500 (DText (u "PDF conversion failed")) /\
     (forall k b, ~ In (EvPut k b) tr)).
Proof.
  intros H Hin. unfold generate_docx in H.
  case_bool_decide; cbn [negb] in H; [|injection H as <- <-; contradiction].
  destruct (generate_body C E p []) as [tr' res] eqn:Hb.
  run_in Hb; injection Hb as <- <-; injection H as <- <-.
  all: cbn [app In] in Hin; repeat destruct Hin as [Hin|Hin]; try discriminate; try contradiction.
  all: injection Hin as ->.
  all: rewrite ?negb_true_iff, ?negb_false_iff, ?Z.eqb_eq, ?Z.eqb_neq in *.
  all: split; [intros Hx | intros Hx Hy]; try congruence.
  all: split; [reflexivity|].
  all: intros k b Hk; cbn [In] in Hk; repeat destruct Hk as [Hk|Hk];
         discriminate || contradiction.
Qed.

(** ** The verification URL *)

Lemma rstrip_by_decomp (p : Z -> bool) (s : pystr) :
  exists suf, s = rstrip_by p s ++ suf /\ Forall (fun c => p c = true) suf /\
    (forall b c, rstrip_by p s = b ++ [c] -> p c = false).
Proof.
  destruct (lstrip_by_decomp p (rev s)) as (pre & Hs & Hpre & Hh).
  exists (rev pre). unfold rstrip_by. split; [|split].
  - rewrite <- rev_app_distr, <- Hs, rev_involutive. reflexivity.
  - apply Forall_rev. exact Hpre.
  - intros b c Hb. apply (Hh c (rev b)).
    rewrite <- (rev_involutive (lstrip_by p (rev s))), Hb, rev_app_distr.
    reflexivity.
Qed.

(** C8 (as the code does it): the URL is the base with all its trailing
    slashes removed, one slash, and the certificate number exactly as
    given; nothing removes a leading slash of the certificate number. *)
Theorem verify_url_join (base cert_no : pystr) :
  exists b suf,
    base = b ++ suf /\ Forall (fun c => c = SLASH) suf /\
    (forall b' c, b = b' ++ [c] -> c <> SLASH) /\
    verify_url base cert_no = b ++ [SLASH] ++ cert_no.
Proof.
  destruct (rstrip_by_decomp (fun c => c =? SLASH) base) as (suf & Hb & Hsuf & Hl).
  exists (rstrip_by (fun c => c =? SLASH) base), suf.
  split; [exact Hb|split; [|split; [|reflexivity]]].
  - eapply Forall_impl; [exact Hsuf|]. intros c Hc. apply Z.eqb_eq, Hc.
  - intros b' c Hc. apply Z.eqb_neq. exact (Hl b' c Hc).
Qed.

(** C8 fails as worded: a certificate number starting with a slash gives
    a doubled separator. *)
Lemma verify_url_double_slash :
  verify_url (VERIFY_BASE_URL cfg0) (u "/A1") = u "https://verify.example.com//A1".
Proof. reflexivity. Qed.

(** ** Validation errors *)

Definition nocert_payload : payload := {|
  templateKey := u "t1"; signatureKey := u "s1"; outputKey := u "x";
  data := <[u "first_name" := u "Jane"]> (<[u "last_name" := u "Doe"]> ∅) |}.

Definition dashcert_payload : payload := {|
  templateKey := u "t1"; signatureKey := u "s1"; outputKey := u "x";
  data := <[u "certificate_number" := u "---"]> (<[u "first_name" := u "Jane"]>
          (<[u "last_name" := u "Doe"]> ∅)) |}.

(** C1: both validation failures are raised as [HTTPException(400, ...)]
    inside the [try]; the [except Exception] catches them and answers 500
    with detail ["400: ..."]. *)
Theorem validation_errors_become_500 :
  generate_docx cfg0 env0 (Some (u "secret")) nocert_payload =
    ([EvGet (u "t1")],
     RespError 500 (DText (u "400: certificate_number missing"))) /\
  generate_docx cfg0 env0 (Some (u "secret")) dashcert_payload =
    ([EvGet (u "t1"); EvGet (u "s1")],
     RespError 500 (DText (u "400: certificate_number, first_name and last_name are required"))).
Proof. split; vm_compute; reflexivity. Qed.

(** C3 (as the code does it): without a certificate number the request
    fails; with the right API key the template download is the only
    external call made, with a wrong one there is none. *)
Theorem missing_cert_fails_early (C : config) (E : env) (api : option pystr) (p : payload)
    (tr : list event) (r : response) :
  get (data p) (u "certificate_number") = [] ->
  generate_docx C E api p = (tr, r) ->
  (exists st d, r = RespError st d) /\
  tr = (if bool_decide (api = Some (INTERNAL_API_KEY C)) then [EvGet (templateKey p)] else []).
Proof.
  intros Hc H. unfold generate_docx in H.
  case_bool_decide; cbn [negb] in H; [|injection H as <- <-; split; [eauto|reflexivity]].
  destruct (generate_body C E p []) as [tr' res] eqn:Hb.
  run_in Hb; injection Hb as <- <-; injection H as <- <-.
  all: try (split; [eauto|reflexivity]).
  all: match goal with
       | Hx : bool_decide (get _ _ = []) = false |- _ =>
           rewrite Hc, bool_decide_eq_true_2 in Hx by reflexivity; discriminate
       end.
Qed.

(** C3 fails as worded: the template is fetched before the check, and the
    answer is a 500. *)
Lemma missing_cert_fetches_template :
  generate_docx cfg0 env0 (Some (u "secret")) nocert_payload =
    ([EvGet (u "t1")],
     RespError 500 (DText (u "400: certificate_number missing"))).
Proof. vm_compute. reflexivity. Qed.

(** ** The example request of the spec *)




(** C5 fails as worded: the object is stored under the [.pdf] key. *)
Definition jane_payload : payload := {|
  templateKey := u "t1"; signatureKey := u "s1"; outputKey := u "x"; data := jane_data |}.

Lemma stored_key_is_pdf :
  generate_docx cfg0 env0 (Some (u "secret")) jane_payload =
    ([EvGet (u "t1"); EvGet (u "s1"); EvConvert [4];
      EvPut (u "certificates/CERT001_Jane_Doe.pdf") [5]],
     RespOk (u "certificates/CERT001_Jane_Doe.pdf")) /\
  output_key_of jane_data = u "certificates/CERT001_Jane_Doe.docx" /\
  u "certificates/CERT001_Jane_Doe.pdf" <> output_key_of jane_data.
Proof. split; [vm_compute; reflexivity|split; [reflexivity|discriminate]]. Qed.

(** ** Witnesses *)

Lemma stored_key_derivation_witness :
  generate_docx cfg0 env0 (Some (u "secret")) jane_payload =
    ([EvGet (u "t1"); EvGet (u "s1"); EvConvert [4];
      EvPut (u "certificates/CERT001_Jane_Doe.pdf") [5]],
     RespOk (u "certificates/CERT001_Jane_Doe.pdf")) /\
  (forall o : pystr, generate_docx cfg0 env0 (Some (u "secret")) (with_outputKey jane_payload o) =
    ([EvGet (u "t1"); EvGet (u "s1"); EvConvert [4];
      EvPut (u "certificates/CERT001_Jane_Doe.pdf") [5]],
     RespOk (u "certificates/CERT001_Jane_Doe.pdf"))).
Proof.
  assert (H : generate_docx cfg0 env0 (Some (u "secret")) jane_payload =
    ([EvGet (u "t1"); EvGet (u "s1"); EvConvert [4];
      EvPut (u "certificates/CERT001_Jane_Doe.pdf") [5]],
     RespOk (u "certificates/CERT001_Jane_Doe.pdf"))) by (vm_compute; reflexivity).
  split; [exact H|].
  destruct (stored_key_derivation _ _ _ _ _ _ H) as (_ & _ & _ & _ & _ & Ho).
  exact Ho.
Defined.

Lemma conversion_failure_no_publish_witness :
  generate_docx cfg0 (env_with 1) (Some (u "secret")) jane_payload =
    ([EvGet (u "t1"); EvGet (u "s1"); EvConvert [4]],
     RespError 500 (DStr (CalledProcessError 1))) /\
  In (EvConvert [4]) [EvGet (u "t1"); EvGet (u "s1"); EvConvert [4]] /\
  e_convert_exit (env_with 1) [4] <> 0 /\
  (forall k b, ~ In (EvPut k b) [EvGet (u "t1"); EvGet (u "s1"); EvConvert [4]]).
Proof.
  assert (H : generate_docx cfg0 (env_with 1) (Some (u "secret")) jane_payload =
    ([EvGet (u "t1"); EvGet (u "s1"); EvConvert [4]],
     RespError 500 (DStr (CalledProcessError 1)))) by (vm_compute; reflexivity).
  assert (Hin : In (EvConvert [4]) [EvGet (u "t1"); EvGet (u "s1"); EvConvert [4]])
    by (right; right; left; reflexivity).
  assert (Hrc : e_convert_exit (env_with 1) [4] <> 0) by discriminate.
  split; [exact H|split; [exact Hin|split; [exact Hrc|]]].
  destruct (conversion_failure_no_publish _ _ _ _ _ _ _ H Hin) as [H1 _].
  exact (proj2 (H1 Hrc)).
Defined.

Lemma missing_cert_fails_early_witness :
  get (data nocert_payload) (u "certificate_number") = [] /\
  (exists st d, generate_docx cfg0 env0 (Some (u "secret")) nocert_payload =
                ([EvGet (u "t1")], RespError st d)).
Proof.
  assert (Hc : get (data nocert_payload) (u "certificate_number") = []) by reflexivity.
  split; [exact Hc|].
  destruct (generate_docx cfg0 env0 (Some (u "secret")) nocert_payload) as [tr r] eqn:H.
  destruct (missing_cert_fails_early _ _ _ _ _ _ Hc H) as [(st & d & ->) Htr].
  exists st, d. rewrite Htr. reflexivity.
Defined.




Example parse_origins_ex :
  parse_origins (u " https://a.example , ,https://b.example,") = [u "https://a.example"; u "https://b.example"].
Proof. reflexivity. Qed.

(** * Further properties of the code *)

(** ** [safe_part] *)

Lemma length_lstrip_by (p : Z -> bool) (s : pystr) : (length (lstrip_by p s) <= length s)%nat.
Proof. induction s as [|c s IH]; [simpl; lia|]. simpl. destruct (p c); simpl; lia. Qed.

Lemma length_sub_ws_aux (b : bool) (s : pystr) : (length (sub_ws_aux b s) <= length s)%nat.
Proof.
  revert b. induction s as [|c s IH]; intros b; [simpl; lia|].
  pose proof (IH false). pose proof (IH true).
  simpl. destruct (is_space c), b; simpl; lia.
Qed.

Lemma length_filter_le (f : Z -> bool) (s : pystr) : (length (List.filter f s) <= length s)%nat.
Proof. induction s as [|c s IH]; [simpl; lia|]. simpl. destruct (f c); simpl; lia. Qed.

(** [safe_part] only ever returns characters of [[A-Za-z0-9_]] and never
    makes a string longer. *)
Theorem safe_part_words_shorter (v : pystr) :
  Forall (fun c => is_word c = true) (safe_part v) /\ (length (safe_part v) <= length v)%nat.
Proof.
  split; [apply sub_nonword_words|].
  unfold safe_part, sub_nonword, sub_ws, strip, rstrip, rstrip_by, lstrip.
  pose proof (length_filter_le is_word
    (sub_ws_aux false (rev (lstrip_by is_space (rev (lstrip_by is_space v)))))).
  pose proof (length_sub_ws_aux false (rev (lstrip_by is_space (rev (lstrip_by is_space v))))).
  pose proof (length_lstrip_by is_space (rev (lstrip_by is_space v))).
  pose proof (length_lstrip_by is_space v).
  rewrite length_rev in *. lia.
Qed.

(** The strings [safe_part] leaves unchanged are exactly those made only of
    [[A-Za-z0-9_]]. *)
Theorem safe_part_fixed_iff (v : pystr) :
  safe_part v = v <-> Forall (fun c => is_word c = true) v.
Proof.
  split.
  - intros H. rewrite <- H. apply sub_nonword_words.
  - apply safe_part_words_fixed.
Qed.

(** ** [format_mmddyyyy] *)

Lemma format_cases (L : date_lib) (s : pystr) :
  format_mmddyyyy L s = s \/
  exists y m d, format_mmddyyyy L s = strftime_mdY L y m d.
Proof.
  unfold format_mmddyyyy. destruct (fromiso L s) as [[[y m] d]|].
  - right. eauto.
  - left. reflexivity.
Qed.

Lemma fromiso_strftime (L : date_lib) (HL : date_lib_ok L) (y m d : Z) :
  fromiso L (strftime_mdY L y m d) = None.
Proof.
  destruct (fromiso L (strftime_mdY L y m d)) as [r|] eqn:H; [|reflexivity].
  destruct (fromiso_year_digits L HL _ _ H) as (y1 & y2 & y3 & y4 & rest & Heq & Hd).
  unfold strftime_mdY in Heq. pose proof (zpad_length 2 m) as Hl.
  destruct (zpad 2 m) as [|a [|b [|c l]]]; try discriminate Hl.
  cbn [app] in Heq. injection Heq as _ _ <- _ _.
  apply Forall_inv_tail, Forall_inv_tail, Forall_inv in Hd. discriminate Hd.
Qed.

(** Normalizing a date twice is normalizing it once, for every date
    library that meets the contract of [fromisoformat]: an [MM/DD/...]
    result is not re-parsed (it has a slash where the year's third digit
    would be), and a string that failed to parse is returned as is. *)
Theorem format_mmddyyyy_idempotent (L : date_lib) (HL : date_lib_ok L) (s : pystr) :
  format_mmddyyyy L (format_mmddyyyy L s) = format_mmddyyyy L s.
Proof.
  destruct (format_cases L s) as [H|(y & m & d & H)]; rewrite H.
  - exact H.
  - unfold format_mmddyyyy at 1. rewrite (fromiso_strftime L HL). reflexivity.
Qed.

Lemma format_mmddyyyy_idempotent_witness :
  date_lib_ok sample_date_lib /\
  format_mmddyyyy sample_date_lib (format_mmddyyyy sample_date_lib (u "0999-01-01"))
  = u "01/01/999".
Proof.
  split; [exact sample_date_lib_ok|].
  rewrite (format_mmddyyyy_idempotent sample_date_lib sample_date_lib_ok). reflexivity.
Defined.

(** ** The verification URL *)

Lemma lstrip_by_app_true (p : Z -> bool) (pre x : pystr) :
  Forall (fun c => p c = true) pre -> lstrip_by p (pre ++ x) = lstrip_by p x.
Proof. induction 1 as [|c pre Hc _ IH]; [reflexivity|]. simpl. rewrite Hc. exact IH. Qed.

(** Trailing slashes of the configured base URL make no difference to the
    QR payload. *)
Theorem verify_url_trailing_slashes (base cert_no : pystr) (k : nat) :
  verify_url (base ++ repeat SLASH k) cert_no = verify_url base cert_no.
Proof.
  unfold verify_url, rstrip_by. f_equal. f_equal.
  rewrite rev_app_distr, rev_repeat, lstrip_by_app_true; [reflexivity|].
  apply Forall_forall. intros c Hc. apply list_elem_of_In, repeat_spec in Hc.
  subst. reflexivity.
Qed.

(** ** The CORS origin list *)

Lemma split_aux_free (sep : Z) (cur x rest : pystr) :
  Forall (fun c => c <> sep) x ->
  split_aux sep cur (x ++ rest) = split_aux sep (rev x ++ cur) rest.
Proof.
  intros H. revert cur. induction H as [|c x Hc _ IH]; intros cur; [reflexivity|].
  simpl. rewrite (proj2 (Z.eqb_neq c sep) Hc), IH, <- app_assoc. reflexivity.
Qed.

Lemma split_aux_fields (sep : Z) (cur s : pystr) :
  Forall (fun c => c <> sep) cur ->
  List.Forall (fun f => Forall (fun c => c <> sep) f) (split_aux sep cur s).
Proof.
  revert cur. induction s as [|c s IH]; intros cur Hcur; simpl.
  - constructor; [apply Forall_rev, Hcur|constructor].
  - destruct (Z.eqb_spec c sep).
    + constructor; [apply Forall_rev, Hcur|apply IH; constructor].
    + apply IH. constructor; assumption.
Qed.

Lemma strip_incl (o : pystr) (c : Z) : In c (strip o) -> In c o.
Proof.
  destruct (strip_trimmed o) as (pre & suf & Ho & _). intros H.
  rewrite Ho. apply in_or_app. right. apply in_or_app. left. exact H.
Qed.

Lemma strip_idem (o : pystr) : strip (strip o) = strip o.
Proof.
  symmetry. apply trimmed_unique.
  destruct (strip_trimmed o) as (pre & suf & _ & _ & _ & Hb).
  exists [], []. rewrite app_nil_r. repeat split; [constructor|constructor|exact Hb].
Qed.

Lemma strip_spaces (lead : pystr) : Forall (fun c => is_space c = true) lead -> strip lead = [].
Proof. intros H. unfold strip. rewrite lstrip_all_spaces by exact H. reflexivity. Qed.

Lemma strip_pad (lead o ws : pystr) :
  Forall (fun c => is_space c = true) lead -> Forall (fun c => is_space c = true) ws ->
  strip o = o -> o <> [] -> strip (lead ++ o ++ ws) = o.
Proof.
  intros Hl Hw Ho Hne. symmetry. apply trimmed_unique.
  destruct (strip_trimmed o) as (_ & _ & _ & _ & _ & Hb). rewrite Ho in Hb.
  exists lead, ws. repeat split; try assumption.
Qed.

Lemma space_not_comma (c : Z) : is_space c = true -> c <> COMMA.
Proof. intros H ->. discriminate H. Qed.

Lemma split_join_comma (fs : list pystr) :
  fs <> [] -> List.Forall (fun f => Forall (fun c => c <> COMMA) f) fs ->
  py_split (py_join [COMMA] fs) COMMA = fs.
Proof.
  unfold py_split. intros Hne Hfs.
  induction Hfs as [|x fs Hx Hfs IH]; [congruence|].
  destruct fs as [|y fs].
  - cbn [py_join]. pose proof (split_aux_free COMMA [] x [] Hx) as H.
    rewrite app_nil_r in H. rewrite H. cbn [split_aux].
    rewrite app_nil_r, rev_involutive. reflexivity.
  - change (py_join [COMMA] (x :: y :: fs)) with (x ++ COMMA :: py_join [COMMA] (y :: fs)).
    rewrite split_aux_free by exact Hx. cbn [split_aux].
    rewrite Z.eqb_refl, app_nil_r, rev_involutive. f_equal. apply IH. discriminate.
Qed.

Definition origin_padded (t : pystr * pystr * pystr) : Prop :=
  let '(a, o, b) := t in
  Forall (fun c => is_space c = true) a /\ Forall (fun c => is_space c = true) b /\
  o <> [] /\ strip o = o /\ Forall (fun c => c <> COMMA) o.

Lemma origin_padded_free (t : pystr * pystr * pystr) :
  origin_padded t -> Forall (fun c => c <> COMMA) ((fun '(a, o, b) => a ++ o ++ b) t).
Proof.
  destruct t as [[a o] b]. intros (Ha & Hb & _ & _ & Ho).
  assert (Hsp : forall w, Forall (fun c => is_space c = true) w -> Forall (fun c => c <> COMMA) w)
    by (intros w Hw; eapply Forall_impl; [exact Hw|exact space_not_comma]).
  apply Forall_app; split; [apply Hsp, Ha|apply Forall_app; split; [exact Ho|apply Hsp, Hb]].
Qed.

Lemma strip_padded_fields (l : list (pystr * pystr * pystr)) :
  List.Forall origin_padded l ->
  map strip (List.filter (fun o => negb (bool_decide (strip o = [])))
    (map (fun '(a, o, b) => a ++ o ++ b) l)) = map (fun '(_, o, _) => o) l.
Proof.
  induction 1 as [|[[a o] b] l (Ha & Hb & Hne & Ho & _) _ IH]; [reflexivity|].
  cbn [map List.filter]. rewrite strip_pad by assumption.
  rewrite bool_decide_eq_false_2 by exact Hne. cbn [negb map].
  rewrite strip_pad by assumption. f_equal. exact IH.
Qed.

(** Every allowed origin is non-empty, has no surrounding whitespace and
    contains no comma; an unset or empty [CORS_ORIGINS] gives no origin. *)
Theorem parse_origins_clean (cors_origins : pystr) :
  List.Forall (fun o => o <> [] /\ strip o = o /\ Forall (fun c => c <> COMMA) o)
    (parse_origins cors_origins) /\
  parse_origins [] = [].
Proof.
  split; [|reflexivity].
  apply List.Forall_forall. intros x Hx. unfold parse_origins in Hx.
  apply in_map_iff in Hx as (o & <- & Ho). apply filter_In in Ho as [Ho Hf].
  apply negb_true_iff, bool_decide_eq_false in Hf.
  split; [exact Hf|split; [apply strip_idem|]].
  pose proof (split_aux_fields COMMA [] cors_origins (List.Forall_nil _)) as Hs.
  rewrite List.Forall_forall in Hs. specialize (Hs o Ho).
  apply List.Forall_forall. intros c Hc.
  rewrite List.Forall_forall in Hs. apply Hs, strip_incl, Hc.
Qed.

(** Round trip: a list of clean origins joined with commas, each origin
    with its own whitespace before and after it, is read back as the list
    of origins. *)
Theorem parse_origins_join (l : list (pystr * pystr * pystr)) :
  List.Forall origin_padded l ->
  parse_origins (py_join [COMMA] (map (fun '(a, o, b) => a ++ o ++ b) l))
  = map (fun '(_, o, _) => o) l.
Proof.
  intros Hl. unfold parse_origins.
  destruct l as [|t l]; [reflexivity|].
  rewrite split_join_comma; [exact (strip_padded_fields _ Hl)|discriminate|].
  apply List.Forall_map. eapply List.Forall_impl; [exact origin_padded_free|exact Hl].
Qed.

Lemma parse_origins_join_witness :
  parse_origins (py_join [COMMA]
    (map (fun '(a, o, b) => a ++ o ++ b)
      [([], u "https://a.example", [32]); ([32; 9], u "https://b.example", [])]))
  = [u "https://a.example"; u "https://b.example"].
Proof.
  apply (parse_origins_join
    [([], u "https://a.example", [32]); ([32; 9], u "https://b.example", [])]).
  repeat (apply List.Forall_cons; [|]); [..|apply List.Forall_nil];
    (split; [repeat constructor|split; [repeat constructor|split; [discriminate|split;
      [reflexivity|vm_compute; repeat (apply List.Forall_cons; [discriminate|]);
       apply List.Forall_nil]]]]).
Defined.

(** ** Start-up *)

Definition forbidden : list event * response := ([], RespError 403 (DText (u "Forbidden"))).

Definition r2_endpoint (environ : gmap pystr pystr) : pystr :=
  u "https://" ++ fstr_opt (getenv environ (u "R2_ACCOUNT_ID")) ++ u ".r2.cloudflarestorage.com".

(** The module loads exactly when both [INTERNAL_API_KEY] and
    [VERIFY_BASE_URL] are set to non-empty strings and [boto3.client]
    accepts the endpoint built from [R2_ACCOUNT_ID] and the two
    credentials. *)
Theorem startup_ok_iff (s3_client : pystr -> option pystr -> option pystr -> option exn)
    (environ : gmap pystr pystr) :
  (exists a, startup s3_client environ = inr a) <->
  (exists k, getenv environ (u "INTERNAL_API_KEY") = Some k /\ k <> []) /\
  (exists b, getenv environ (u "VERIFY_BASE_URL") = Some b /\ b <> []) /\
  s3_client (r2_endpoint environ) (getenv environ (u "R2_ACCESS_KEY_ID"))
    (getenv environ (u "R2_SECRET_ACCESS_KEY")) = None.
Proof.
  unfold startup, r2_endpoint.
  destruct (getenv environ (u "INTERNAL_API_KEY")) as [[|c k]|];
    [| destruct (getenv environ (u "VERIFY_BASE_URL")) as [[|c' b]|] |].
  all: try destruct (s3_client _ _ _) as [e|] eqn:Hc.
  all: split; [intros [a Ha]; try discriminate Ha|].
  all: try (intros [(k' & Hk & Hk') _]; injection Hk as <-; contradiction).
  all: try (intros [(k' & Hk & Hk') _]; discriminate Hk).
  all: try (intros (_ & (b' & Hb & Hb') & _); injection Hb as <-; contradiction).
  all: try (intros (_ & (b' & Hb & Hb') & _); discriminate Hb).
  - intros (_ & _ & He). discriminate He.
  - split; [|split; [|reflexivity]]; eexists; split; try reflexivity; discriminate.
  - intros _. eexists. reflexivity.
Qed.

(** The API key is checked first: without a non-empty key the module does
    not load, whatever else the environment holds and whatever the S3
    client would do. *)
Theorem startup_key_checked_first
    (s3_client : pystr -> option pystr -> option pystr -> option exn)
    (environ : gmap pystr pystr) :
  (forall k, getenv environ (u "INTERNAL_API_KEY") = Some k -> k = []) ->
  startup s3_client environ = inl (RuntimeError (u "INTERNAL_API_KEY not set")).
Proof.
  intros H. unfold startup.
  destruct (getenv environ (u "INTERNAL_API_KEY")) as [k|]; [|reflexivity].
  rewrite (H k eq_refl). reflexivity.
Qed.

Lemma startup_key_checked_first_witness :
  startup (fun _ _ _ => Some (ClientError (u "Invalid endpoint"))) ∅
  = inl (RuntimeError (u "INTERNAL_API_KEY not set")).
Proof. apply startup_key_checked_first. intros k Hk. discriminate Hk. Defined.

(** ** The API key *)

Lemma generate_docx_wrong_key (C : config) (E : env) (api : option pystr) (p : payload) :
  api <> Some (INTERNAL_API_KEY C) -> generate_docx C E api p = forbidden.
Proof. intros H. unfold generate_docx. rewrite bool_decide_eq_false_2 by exact H. reflexivity. Qed.

(** Once the module has loaded, a request without the header, or with an
    empty one, is refused: the start-up check rules out an empty key. *)
Theorem startup_refuses_missing_header
    (s3_client : pystr -> option pystr -> option pystr -> option exn)
    (environ : gmap pystr pystr) (a : app_module) :
  startup s3_client environ = inr a ->
  INTERNAL_API_KEY (app_config a) <> [] /\ VERIFY_BASE_URL (app_config a) <> [] /\
  forall E p, generate_docx (app_config a) E None p = forbidden /\
              generate_docx (app_config a) E (Some []) p = forbidden.
Proof.
  unfold startup.
  destruct (getenv environ (u "INTERNAL_API_KEY")) as [[|c k]|]; try discriminate.
  destruct (getenv environ (u "VERIFY_BASE_URL")) as [[|c' b]|]; try discriminate.
  destruct (s3_client _ _ _); [discriminate|].
  intros H. injection H as <-. cbn [app_config INTERNAL_API_KEY VERIFY_BASE_URL].
  split; [discriminate|split; [discriminate|]].
  intros E p. split; apply generate_docx_wrong_key; discriminate.
Qed.

Definition environ0 : gmap pystr pystr :=
  <[u "INTERNAL_API_KEY" := u "secret"]> (<[u "VERIFY_BASE_URL" := u "https://verify.example.com/"]> ∅).

Lemma startup_refuses_missing_header_witness :
  exists a, startup (fun _ _ _ => None) environ0 = inr a /\
    generate_docx (app_config a) env0 None jane_payload = forbidden.
Proof.
  eexists. split; [vm_compute; reflexivity|].
  refine (proj1 (proj2 (proj2 (startup_refuses_missing_header (fun _ _ _ => None)
    environ0 _ _)) env0 jane_payload)).
  vm_compute. reflexivity.
Defined.

(** ** The order of the external calls *)

Ltac open_run H :=
  unfold generate_docx in H;
  case_bool_decide; cbn [negb] in H;
  [ let Hb := fresh "Hb" in
    destruct (generate_body _ _ _ []) as [?tr' ?res] eqn:Hb;
    run_in Hb; injection Hb as <- <-; injection H as <- <-
  | injection H as <- <- ].

(** Every run makes its calls in the order of the source: the template,
    the signature, one conversion, and one upload of the converter's
    output under the derived [.pdf] key; each stops at the first
    failure. *)
Theorem generate_docx_call_order (C : config) (E : env) (api : option pystr) (p : payload)
    (tr : list event) (r : response) :
  generate_docx C E api p = (tr, r) ->
  tr = [] \/ tr = [EvGet (templateKey p)] \/
  tr = [EvGet (templateKey p); EvGet (signatureKey p)] \/
  (exists d, tr = [EvGet (templateKey p); EvGet (signatureKey p); EvConvert d]) \/
  (exists d pdf, tr = [EvGet (templateKey p); EvGet (signatureKey p); EvConvert d;
                       EvPut (key_stem (data p) ++ u ".pdf") pdf] /\
                 e_convert_exit E d = 0 /\ e_convert_out E d = Some pdf).
Proof.
  intros H. open_run H.
  all: rewrite ?output_key_stem, ?replace_docx_stem by apply key_stem_no_dot.
  all: rewrite ?negb_true_iff, ?negb_false_iff, ?Z.eqb_eq, ?Z.eqb_neq in *.
  all: first [ left; reflexivity | right; left; reflexivity | do 2 right; left; reflexivity
             | do 3 right; left; eexists; reflexivity
             | do 4 right; do 2 eexists; split; [reflexivity|split; assumption] ].
Qed.

Lemma generate_docx_call_order_witness :
  exists tr r, generate_docx cfg0 env0 (Some (u "secret")) jane_payload = (tr, r) /\
  (exists d pdf, tr = [EvGet (u "t1"); EvGet (u "s1"); EvConvert d;
                       EvPut (key_stem jane_data ++ u ".pdf") pdf] /\
                 e_convert_exit env0 d = 0 /\ e_convert_out env0 d = Some pdf).
Proof.
  destruct (generate_docx cfg0 env0 (Some (u "secret")) jane_payload) as [tr r] eqn:H.
  exists tr, r. split; [reflexivity|].
  pose proof H as H'. vm_compute in H'. injection H' as <- <-.
  destruct (generate_docx_call_order _ _ _ _ _ _ H)
    as [Ht|[Ht|[Ht|[(d & Ht)|(d & pdf & Ht & Hx & Ho)]]]]; try discriminate Ht.
  exists d, pdf. split; [exact Ht|split; assumption].
Defined.

(** The handler answers [{"key": k}] exactly when its last call was an
    upload under [k] that the bucket accepted. *)
Theorem success_iff_upload (C : config) (E : env) (api : option pystr) (p : payload)
    (tr : list event) (r : response) :
  generate_docx C E api p = (tr, r) ->
  forall k, r = RespOk k <-> (exists b, last tr = Some (EvPut k b)) /\ e_put_ok E k = true.
Proof.
  intros H k. open_run H.
  all: split; [intros Hr; try discriminate Hr|intros [(b & Hl) Hk]; try discriminate Hl].
  - injection Hr as <-. split; [eexists; reflexivity|assumption].
  - cbn [last app] in Hl. injection Hl as <- _. reflexivity.
  - cbn [last app] in Hl. injection Hl as <- _. congruence.
Qed.

Lemma success_iff_upload_witness :
  generate_docx cfg0 env0 (Some (u "secret")) jane_payload =
    ([EvGet (u "t1"); EvGet (u "s1"); EvConvert [4];
      EvPut (u "certificates/CERT001_Jane_Doe.pdf") [5]],
     RespOk (u "certificates/CERT001_Jane_Doe.pdf")) /\
  e_put_ok env0 (u "certificates/CERT001_Jane_Doe.pdf") = true.
Proof.
  assert (H : generate_docx cfg0 env0 (Some (u "secret")) jane_payload =
    ([EvGet (u "t1"); EvGet (u "s1"); EvConvert [4];
      EvPut (u "certificates/CERT001_Jane_Doe.pdf") [5]],
     RespOk (u "certificates/CERT001_Jane_Doe.pdf"))) by (vm_compute; reflexivity).
  split; [exact H|].
  exact (proj2 (proj1 (success_iff_upload _ _ _ _ _ _ H _) eq_refl)).
Defined.

(** ** Failures *)





(** When the sanitized certificate number, first name or last name is
    empty, nothing is converted and nothing is uploaded; the answer is an
    error. *)
Theorem identity_failure_no_upload (C : config) (E : env) (api : option pystr) (p : payload)
    (tr : list event) (r : response) :
  identity_ok (data p) = false ->
  generate_docx C E api p = (tr, r) ->
  (exists st d, r = RespError st d) /\
  (forall d, ~ In (EvConvert d) tr) /\ (forall k b, ~ In (EvPut k b) tr).
Proof.
  intros Hid H. open_run H.
  all: rewrite ?Hid in *; try discriminate.
  all: split; [eauto|split; intros *; cbn [app In]; intros Hin;
               repeat destruct Hin as [Hin|Hin]; discriminate Hin || contradiction].
Qed.

Definition anon_payload : payload := {|
  templateKey := u "t1"; signatureKey := u "s1"; outputKey := u "x";
  data := <[u "certificate_number" := u "CERT-001"]> (<[u "first_name" := u "--"]>
          (<[u "last_name" := u "Doe"]> ∅)) |}.

Lemma identity_failure_no_upload_witness :
  identity_ok (data anon_payload) = false /\
  generate_docx cfg0 env0 (Some (u "secret")) anon_payload =
    ([EvGet (u "t1"); EvGet (u "s1")],
     RespError 500 (DText (u "400: certificate_number, first_name and last_name are required"))) /\
  (forall d, ~ In (EvConvert d) [EvGet (u "t1"); EvGet (u "s1")]).
Proof.
  assert (Hid : identity_ok (data anon_payload) = false) by (vm_compute; reflexivity).
  assert (H : generate_docx cfg0 env0 (Some (u "secret")) anon_payload =
    ([EvGet (u "t1"); EvGet (u "s1")],
     RespError 500 (DText (u "400: certificate_number, first_name and last_name are required"))))
    by (vm_compute; reflexivity).
  split; [exact Hid|split; [exact H|]].
  exact (proj1 (proj2 (identity_failure_no_upload _ _ _ _ _ _ Hid H))).
Defined.

(** ** The uploaded object *)

(** Whatever the request data, an upload only happens for a complete
    identity, under [certificates/<name>.pdf] where [name] is made of
    [[A-Za-z0-9_]] only: no [/], no [.], no path traversal. *)
Theorem upload_key_safe (C : config) (E : env) (api : option pystr) (p : payload)
    (tr : list event) (r : response) (k : pystr) (b : bytes) :
  generate_docx C E api p = (tr, r) -> In (EvPut k b) tr ->
  identity_ok (data p) = true /\
  exists name, k = u "certificates/" ++ name ++ u ".pdf" /\
               Forall (fun c => is_word c = true) name.
Proof.
  intros H Hin. open_run H.
  all: cbn [app In] in Hin; repeat destruct Hin as [Hin|Hin]; try discriminate Hin;
       try contradiction.
  all: injection Hin as <- <-.
  all: match goal with Hx : negb (identity_ok _) = false |- _ => apply negb_false_iff in Hx end.
  all: split; [assumption|].
  all: rewrite output_key_stem, replace_docx_stem by apply key_stem_no_dot.
  all: eexists; split; [unfold key_stem; rewrite <- app_assoc; reflexivity|].
  all: apply py_join_words; [apply List.Forall_cons; [reflexivity|apply List.Forall_nil]|].
  all: apply filename_parts_forall; intros; apply sub_nonword_words.
Qed.

Definition dotted_data : gmap pystr pystr :=
  <[u "certificate_number" := u "../../etc/passwd"]> (<[u "first_name" := u "Jane"]>
  (<[u "last_name" := u "Doe.docx"]> ∅)).

Lemma upload_key_safe_witness :
  generate_docx cfg0 env0 (Some (u "secret"))
      {| templateKey := u "t1"; signatureKey := u "s1"; outputKey := u "x"; data := dotted_data |} =
    ([EvGet (u "t1"); EvGet (u "s1"); EvConvert [4];
      EvPut (u "certificates/etcpasswd_Jane_Doedocx.pdf") [5]],
     RespOk (u "certificates/etcpasswd_Jane_Doedocx.pdf")) /\
  Forall (fun c => is_word c = true) (u "etcpasswd_Jane_Doedocx").
Proof.
  assert (H : generate_docx cfg0 env0 (Some (u "secret"))
      {| templateKey := u "t1"; signatureKey := u "s1"; outputKey := u "x"; data := dotted_data |} =
    ([EvGet (u "t1"); EvGet (u "s1"); EvConvert [4];
      EvPut (u "certificates/etcpasswd_Jane_Doedocx.pdf") [5]],
     RespOk (u "certificates/etcpasswd_Jane_Doedocx.pdf"))) by (vm_compute; reflexivity).
  split; [exact H|].
  destruct (upload_key_safe _ _ _ _ _ _ _ _ H
    (or_intror (or_intror (or_intror (or_introl eq_refl))))) as [_ (name & Hk & Hw)].
  assert (Hn : u "etcpasswd_Jane_Doedocx" ++ u ".pdf" = name ++ u ".pdf")
    by (apply (app_inv_head (u "certificates/")); exact Hk).
  apply app_inv_tail in Hn. rewrite Hn. exact Hw.
Defined.

(** ** Status codes *)





(** ** The bucket outside the two keys *)

Definition with_store (E : env) (S : gmap pystr bytes) : env := {|
  e_store := S; e_tpl_ok := e_tpl_ok E; e_qr := e_qr E; e_img := e_img E;
  e_render := e_render E; e_convert_exit := e_convert_exit E;
  e_convert_out := e_convert_out E; e_put_ok := e_put_ok E; e_date := e_date E |}.

(** The handler reads only the template and the signature from the
    bucket: two buckets that agree on those two keys give the same calls
    and the same answer, whatever else they hold. *)
Theorem store_frame (C : config) (E : env) (api : option pystr) (p : payload)
    (S : gmap pystr bytes) :
  S !! templateKey p = e_store E !! templateKey p ->
  S !! signatureKey p = e_store E !! signatureKey p ->
  generate_docx C (with_store E S) api p = generate_docx C E api p.
Proof.
  intros Ht Hs. destruct E. unfold with_store. cbn [e_store] in *.
  unfold generate_docx, generate_body, download_from_r2, convert_docx_to_pdf, put_object,
    of_option, emit, raise, mbind, mret, M_bind, M_ret.
  cbn beta iota zeta.
  cbn [e_store e_tpl_ok e_qr e_img e_render e_convert_exit e_convert_out e_put_ok e_date].
  rewrite Ht, Hs. reflexivity.
Qed.

Lemma store_frame_witness :
  generate_docx cfg0 (with_store env0 (<[u "other" := [9]]> store0)) (Some (u "secret")) jane_payload
  = generate_docx cfg0 env0 (Some (u "secret")) jane_payload.
Proof. apply store_frame; reflexivity. Defined.

(** ** Key collisions *)









